(** * claude-mobile: the notification delivery and acknowledgment engine

    A shallow embedding of [js/ntfy.js] (the connection manager, message
    classifier and response publisher) and of [js/app.js] (the orchestrator),
    followed by the properties of the specification that concern them.

    The repository holds two copies of [ntfy.js]. The embedding follows the
    later one, which has the staleness watchdog and the persisted high-water
    mark and caps the backoff at 10000 ms; [detectType], [extractActions],
    [extractReqId] and [respond] read the same in both copies.

    Conventions of the embedding:
    - a JSON field that may be absent is an [option]; [x || d] and the other
      truthiness tests of the source are written out; numbers of the feed
      ([time], [priority]) are integers;
    - a [Date] is its epoch value in milliseconds, [Date.now()] reads the
      [clock] field of the state, which the event loop sets before it runs a
      handler;
    - a synchronous function is a state transformer; an [async] function is a
      [Task], a tree whose nodes are the [await] points, so that two calls
      can be interleaved the way the event loop interleaves them;
    - a JavaScript object that is shared and mutated (a notification) lives in
      a [heap] and is referred to by its index;
    - a timer is the handle [setTimeout] returns; the browser runs its
      callback when it is pending and due; a [WebSocket] is its [readyState],
      and the browser delivers to it the events that state allows;
    - the two callbacks and the calls into the page (rendering, sound,
      [localStorage] of the orchestrator) are taken not to throw. *)

From Stdlib Require Import ZArith String Ascii List Bool Lia.
From Stdlib Require Import DecimalString DecimalPos.
From stdpp Require Import base list strings.

Open Scope string_scope.
Open Scope list_scope.
Open Scope Z_scope.

(** ** JavaScript primitives used by the sources *)

Module Js.

(** [String(n)] for an integer [n]. *)
Definition String_of_number (n : Z) : string :=
  NilZero.string_of_int (Z.to_int n).

(** [s || d] on strings: the empty string is falsy. *)
Definition truthy_string (s : option string) : bool :=
  match s with
  | Some s => negb (String.eqb s "")
  | None => false
  end.

Definition string_or (s : option string) (d : string) : string :=
  match s with
  | Some s => if String.eqb s "" then d else s
  | None => d
  end.

(** [n || d] and [n ? a : b] on numbers: zero is falsy. *)
Definition truthy_number (n : option Z) : bool :=
  match n with
  | Some n => negb (n =? 0)
  | None => false
  end.

Definition number_or (n : option Z) (d : Z) : Z :=
  match n with
  | Some n => if n =? 0 then d else n
  | None => d
  end.

(** [a || []] on arrays: every array, the empty one too, is truthy. *)
Definition array_or {A} (a : option (list A)) : list A :=
  match a with
  | Some a => a
  | None => []
  end.

(** [Array.prototype.includes] on an array of strings. *)
Definition Array_includes (a : list string) (x : string) : bool :=
  bool_decide (x ∈ a).

(** [String.prototype.includes]: [needle] occurs somewhere in [hay]. *)
Fixpoint String_includes (hay needle : string) : bool :=
  String.prefix needle hay ||
  match hay with
  | EmptyString => false
  | String _ rest => String_includes rest needle
  end.

(** The character class [\d]. *)
Definition is_digit (c : ascii) : bool :=
  let n := nat_of_ascii c in ((48 <=? n) && (n <=? 57))%nat.

Fixpoint all_digits (s : string) : bool :=
  match s with
  | EmptyString => true
  | String c rest => is_digit c && all_digits rest
  end.

(** [s.match(/_(\d+)$/)], returning capture group 1 of the leftmost match:
    at each start position the pattern needs an underscore, then one digit
    or more, then the end of the input. *)
Fixpoint match_underscore_digits_end (s : string) : option string :=
  match s with
  | EmptyString => None
  | String c rest =>
      if Ascii.eqb c "_" && negb (String.eqb rest "") && all_digits rest
      then Some rest
      else match_underscore_digits_end rest
  end.

(** [parseInt(s, 10)]: leading white space (that of ASCII), an optional
    sign, then the longest run of decimal digits; [None] stands for [NaN],
    which the sources only ever test for truthiness, where it behaves as
    [null]. *)
Definition is_white (c : ascii) : bool :=
  let n := nat_of_ascii c in ((n =? 32) || ((9 <=? n) && (n <=? 13)))%nat.

Fixpoint trim_start (s : string) : string :=
  match s with
  | String c rest => if is_white c then trim_start rest else s
  | EmptyString => s
  end.

Definition digit_of (c : ascii) : option (Decimal.uint -> Decimal.uint) :=
  if Ascii.eqb c "0" then Some Decimal.D0
  else if Ascii.eqb c "1" then Some Decimal.D1
  else if Ascii.eqb c "2" then Some Decimal.D2
  else if Ascii.eqb c "3" then Some Decimal.D3
  else if Ascii.eqb c "4" then Some Decimal.D4
  else if Ascii.eqb c "5" then Some Decimal.D5
  else if Ascii.eqb c "6" then Some Decimal.D6
  else if Ascii.eqb c "7" then Some Decimal.D7
  else if Ascii.eqb c "8" then Some Decimal.D8
  else if Ascii.eqb c "9" then Some Decimal.D9
  else None.

Fixpoint digits_prefix (s : string) : Decimal.uint :=
  match s with
  | String c rest =>
      match digit_of c with
      | Some d => d (digits_prefix rest)
      | None => Decimal.Nil
      end
  | EmptyString => Decimal.Nil
  end.

Definition parse_digits (s : string) : option Z :=
  match digits_prefix s with
  | Decimal.Nil => None
  | u => Some (Z.of_uint u)
  end.

Definition parseInt (s : string) : option Z :=
  match trim_start s with
  | String c rest =>
      if Ascii.eqb c "-" then Z.opp <$> parse_digits rest
      else if Ascii.eqb c "+" then parse_digits rest
      else parse_digits (String c rest)
  | EmptyString => None
  end.

(** The outcome of an expression that may throw. *)
Inductive Completion (A : Type) : Type :=
| Normal (a : A)
| Throw.
Arguments Normal {A} a.
Arguments Throw {A}.

End Js.

(** ** The feed message schema and the notification record *)

(** An entry of [msg.actions] as parsed from JSON. *)
Record RawAction := mkRawAction {
  raw_action : option string;
  raw_label : option string;
  raw_body : option string }.

(** A parsed feed message; every field may be missing. *)
Record RawMsg := mkRawMsg {
  msg_id : option string;
  msg_event : option string;
  msg_title : option string;
  msg_message : option string;
  msg_time : option Z;
  msg_priority : option Z;
  msg_tags : option (list string);
  msg_actions : option (list RawAction) }.

(** What [JSON.parse] makes of a frame or of a line of the poll response:
    [None] when it throws. *)
Definition Frame := option RawMsg.

Inductive NotifType := Done | Decision | Approve | Permission | Choice.

Definition type_name (t : NotifType) : string :=
  match t with
  | Done => "done"
  | Decision => "decision"
  | Approve => "approve"
  | Permission => "permission"
  | Choice => "choice"
  end.

(** A response button, [{label, body}]. *)
Record Action := mkAction {
  label : option string;
  body : option string }.

Module Notif.
Record t := mk {
  id : string;
  type : NotifType;
  title : string;
  message : string;
  time : Z;
  priority : Z;
  actions : list Action;
  reqId : option string;
  answered : bool;
  answeredWith : option string }.

Definition set_answer (b : string) (n : t) : t :=
  {| id := id n; type := type n; title := title n; message := message n;
     time := time n; priority := priority n; actions := actions n;
     reqId := reqId n; answered := true; answeredWith := Some b |}.
End Notif.

(** ** The message classifier of [js/ntfy.js] *)

Definition detectType (msg : RawMsg) : NotifType :=
  let tags := Js.array_or (msg_tags msg) in
  let title := Js.string_or (msg_title msg) "" in
  if Js.Array_includes tags "lock" then Permission
  else if Js.Array_includes tags "point_right" then Choice
  else if Js.Array_includes tags "question" then Approve
  else if Js.Array_includes tags "white_check_mark" then Done
  else if Js.Array_includes tags "warning" then Decision
  else if Js.String_includes title "Permission" then Permission
  else if Js.String_includes title "Vyber" then Choice
  else if Js.String_includes title "Schvaleni" then Approve
  else if Js.String_includes title "Hotovo" then Done
  else Decision.

Definition extractActions (msg : RawMsg) : list Action :=
  match msg_actions msg with
  | None => []
  | Some acts =>
      map (fun a => mkAction (raw_label a) (raw_body a))
          (filter (fun a => raw_action a = Some "http") acts)
  end.

(** [actions[0].body.match(...)] throws a [TypeError] when the first action
    has no body. *)
Definition extractReqId (actions : list Action) : Js.Completion (option string) :=
  match actions with
  | [] => Js.Normal None
  | a :: _ =>
      match body a with
      | None => Js.Throw
      | Some b => Js.Normal (Js.match_underscore_digits_end b)
      end
  end.

(** ** Asynchronous functions

    An [async] function is a tree: it reads and writes the shared state
    between two [await]s and is suspended at each [await], where the event
    loop may run other handlers before it resumes the function. *)

Module Async.

Inductive Request :=
| GET (url : string)
| POST (url : string) (payload : string).

(** The response of [fetch]; [lines] is what [res.text()] gives, already
    trimmed, split at newlines and without its empty lines, each line with
    the outcome of [JSON.parse]; it is [None] when reading the text fails. *)
Record HttpResponse := mkHttpResponse {
  ok : bool;
  status : Z;
  lines : option (list Frame) }.

Inductive FetchResult :=
| Resolved (res : HttpResponse)
| Rejected.

Inductive Task (S A : Type) : Type :=
| Ret (a : A)
| Get (k : S -> Task S A)
| Put (s : S) (k : Task S A)
| Fetch (req : Request) (k : FetchResult -> Task S A)
| Sleep (ms : Z) (k : Task S A).
Arguments Ret {S A} a.
Arguments Get {S A} k.
Arguments Put {S A} s k.
Arguments Fetch {S A} req k.
Arguments Sleep {S A} ms k.

Fixpoint bind {S A B} (t : Task S A) (f : A -> Task S B) : Task S B :=
  match t with
  | Ret a => f a
  | Get k => Get (fun s => bind (k s) f)
  | Put s k => Put s (bind k f)
  | Fetch req k => Fetch req (fun r => bind (k r) f)
  | Sleep ms k => Sleep ms (bind k f)
  end.

Definition modify {S} (f : S -> S) : Task S unit :=
  Get (fun s => Put (f s) (Ret tt)).

(** Where a task stands when control returns to the event loop. *)
Inductive Suspended (S A : Type) : Type :=
| Finished (a : A)
| AwaitFetch (req : Request) (k : FetchResult -> Task S A)
| AwaitSleep (ms : Z) (k : Task S A).
Arguments Finished {S A} a.
Arguments AwaitFetch {S A} req k.
Arguments AwaitSleep {S A} ms k.

(** Runs a task up to its next [await]. *)
Fixpoint advance {S A} (t : Task S A) (s : S) : S * Suspended S A :=
  match t with
  | Ret a => (s, Finished a)
  | Get k => advance (k s) s
  | Put s' k => advance k s'
  | Fetch req k => (s, AwaitFetch req k)
  | Sleep ms k => (s, AwaitSleep ms k)
  end.

(** What a task awaited, in order. *)
Inductive Awaited :=
| Fetched (req : Request) (r : FetchResult)
| Slept (ms : Z).

(** Runs a task to its end with nothing else scheduled in between: each
    [fetch] takes the next outcome of [net]. [None] when [net] runs out. *)
Fixpoint exec {S A} (t : Task S A) (net : list FetchResult) (s : S)
  : option (S * A * list Awaited) :=
  match t with
  | Ret a => Some (s, a, [])
  | Get k => exec (k s) net s
  | Put s' k => exec k net s'
  | Fetch req k =>
      match net with
      | [] => None
      | r :: net' =>
          match exec (k r) net' s with
          | Some (s', a, tr) => Some (s', a, Fetched req r :: tr)
          | None => None
          end
      end
  | Sleep ms k =>
      match exec k net s with
      | Some (s', a, tr) => Some (s', a, Slept ms :: tr)
      | None => None
      end
  end.

End Async.

#[global] Instance Task_ret {S} : MRet (Async.Task S) :=
  fun _ a => Async.Ret a.
#[global] Instance Task_bind {S} : MBind (Async.Task S) :=
  fun _ _ f t => Async.bind t f.

(** ** The connection manager and response publisher of [js/ntfy.js] *)

Module Ntfy.
Import Async.

Definition MAX_RECONNECT_DELAY : Z := 10000.
Definition WATCHDOG_MS : Z := 55000.

Inductive ReadyState := CONNECTING | OPEN | CLOSING | CLOSED.

Record WebSocket := mkWebSocket {
  url : string;
  readyState : ReadyState }.

(** A handle returned by [setTimeout]: the delay asked for, the time it was
    set at, and whether the callback is still to run ([clearTimeout] and the
    run of the callback both reset [pending]). *)
Record Timer := mkTimer {
  pending : bool;
  delay : Z;
  set_at : Z }.

(** A poll issued by [_fetchRecent] and whether its response has come. *)
Record Poll := mkPoll {
  request : Request;
  settled : bool }.

Section WithClient.
Context {Client : Type}.

(** The module-level variables of [ntfy.js] ([ws] is an index into
    [sockets]), followed by what the module sees of the browser: the clock,
    every [WebSocket] it has created, the [SINCE_KEY] entry of
    [localStorage] and whether [setItem] succeeds, the polls in flight, the
    number of times the wake listeners were registered, and the state of the
    code behind the two callbacks. *)
Record State := mkState {
  ws : option nat;
  topic : string;
  replyTopic : string;
  reconnectDelay : Z;
  reconnectTimer : option Timer;
  intentionalClose : bool;
  onMessageCallback : option (Notif.t -> Client -> Client);
  onStatusCallback : option (string -> Client -> Client);
  lastSince : option Z;
  watchdogTimer : option Timer;
  clock : Z;
  sockets : list WebSocket;
  stored_since : option string;
  storage_writable : bool;
  polls : list Poll;
  listeners : nat;
  client : Client }.

Definition with_ws (v : option nat) (s : State) : State :=
  mkState v (topic s) (replyTopic s) (reconnectDelay s) (reconnectTimer s)
    (intentionalClose s) (onMessageCallback s) (onStatusCallback s)
    (lastSince s) (watchdogTimer s) (clock s) (sockets s) (stored_since s)
    (storage_writable s) (polls s) (listeners s) (client s).

Definition with_topic (v : string) (s : State) : State :=
  mkState (ws s) v (replyTopic s) (reconnectDelay s) (reconnectTimer s)
    (intentionalClose s) (onMessageCallback s) (onStatusCallback s)
    (lastSince s) (watchdogTimer s) (clock s) (sockets s) (stored_since s)
    (storage_writable s) (polls s) (listeners s) (client s).

Definition with_replyTopic (v : string) (s : State) : State :=
  mkState (ws s) (topic s) v (reconnectDelay s) (reconnectTimer s)
    (intentionalClose s) (onMessageCallback s) (onStatusCallback s)
    (lastSince s) (watchdogTimer s) (clock s) (sockets s) (stored_since s)
    (storage_writable s) (polls s) (listeners s) (client s).

Definition with_reconnectDelay (v : Z) (s : State) : State :=
  mkState (ws s) (topic s) (replyTopic s) v (reconnectTimer s)
    (intentionalClose s) (onMessageCallback s) (onStatusCallback s)
    (lastSince s) (watchdogTimer s) (clock s) (sockets s) (stored_since s)
    (storage_writable s) (polls s) (listeners s) (client s).

Definition with_reconnectTimer (v : option Timer) (s : State) : State :=
  mkState (ws s) (topic s) (replyTopic s) (reconnectDelay s) v
    (intentionalClose s) (onMessageCallback s) (onStatusCallback s)
    (lastSince s) (watchdogTimer s) (clock s) (sockets s) (stored_since s)
    (storage_writable s) (polls s) (listeners s) (client s).

Definition with_intentionalClose (v : bool) (s : State) : State :=
  mkState (ws s) (topic s) (replyTopic s) (reconnectDelay s)
    (reconnectTimer s) v (onMessageCallback s) (onStatusCallback s)
    (lastSince s) (watchdogTimer s) (clock s) (sockets s) (stored_since s)
    (storage_writable s) (polls s) (listeners s) (client s).

Definition with_onMessageCallback (v : option (Notif.t -> Client -> Client)) (s : State) : State :=
  mkState (ws s) (topic s) (replyTopic s) (reconnectDelay s)
    (reconnectTimer s) (intentionalClose s) v (onStatusCallback s)
    (lastSince s) (watchdogTimer s) (clock s) (sockets s) (stored_since s)
    (storage_writable s) (polls s) (listeners s) (client s).

Definition with_onStatusCallback (v : option (string -> Client -> Client)) (s : State) : State :=
  mkState (ws s) (topic s) (replyTopic s) (reconnectDelay s)
    (reconnectTimer s) (intentionalClose s) (onMessageCallback s) v
    (lastSince s) (watchdogTimer s) (clock s) (sockets s) (stored_since s)
    (storage_writable s) (polls s) (listeners s) (client s).

Definition with_lastSince (v : option Z) (s : State) : State :=
  mkState (ws s) (topic s) (replyTopic s) (reconnectDelay s)
    (reconnectTimer s) (intentionalClose s) (onMessageCallback s)
    (onStatusCallback s) v (watchdogTimer s) (clock s) (sockets s)
    (stored_since s) (storage_writable s) (polls s) (listeners s) (client s).

Definition with_watchdogTimer (v : option Timer) (s : State) : State :=
  mkState (ws s) (topic s) (replyTopic s) (reconnectDelay s)
    (reconnectTimer s) (intentionalClose s) (onMessageCallback s)
    (onStatusCallback s) (lastSince s) v (clock s) (sockets s)
    (stored_since s) (storage_writable s) (polls s) (listeners s) (client s).

Definition with_clock (v : Z) (s : State) : State :=
  mkState (ws s) (topic s) (replyTopic s) (reconnectDelay s)
    (reconnectTimer s) (intentionalClose s) (onMessageCallback s)
    (onStatusCallback s) (lastSince s) (watchdogTimer s) v (sockets s)
    (stored_since s) (storage_writable s) (polls s) (listeners s) (client s).

Definition with_sockets (v : list WebSocket) (s : State) : State :=
  mkState (ws s) (topic s) (replyTopic s) (reconnectDelay s)
    (reconnectTimer s) (intentionalClose s) (onMessageCallback s)
    (onStatusCallback s) (lastSince s) (watchdogTimer s) (clock s) v
    (stored_since s) (storage_writable s) (polls s) (listeners s) (client s).

Definition with_stored_since (v : option string) (s : State) : State :=
  mkState (ws s) (topic s) (replyTopic s) (reconnectDelay s)
    (reconnectTimer s) (intentionalClose s) (onMessageCallback s)
    (onStatusCallback s) (lastSince s) (watchdogTimer s) (clock s) (sockets s)
    v (storage_writable s) (polls s) (listeners s) (client s).

Definition with_storage_writable (v : bool) (s : State) : State :=
  mkState (ws s) (topic s) (replyTopic s) (reconnectDelay s)
    (reconnectTimer s) (intentionalClose s) (onMessageCallback s)
    (onStatusCallback s) (lastSince s) (watchdogTimer s) (clock s) (sockets s)
    (stored_since s) v (polls s) (listeners s) (client s).

Definition with_polls (v : list Poll) (s : State) : State :=
  mkState (ws s) (topic s) (replyTopic s) (reconnectDelay s)
    (reconnectTimer s) (intentionalClose s) (onMessageCallback s)
    (onStatusCallback s) (lastSince s) (watchdogTimer s) (clock s) (sockets s)
    (stored_since s) (storage_writable s) v (listeners s) (client s).

Definition with_listeners (v : nat) (s : State) : State :=
  mkState (ws s) (topic s) (replyTopic s) (reconnectDelay s)
    (reconnectTimer s) (intentionalClose s) (onMessageCallback s)
    (onStatusCallback s) (lastSince s) (watchdogTimer s) (clock s) (sockets s)
    (stored_since s) (storage_writable s) (polls s) v (client s).

Definition with_client (v : Client) (s : State) : State :=
  mkState (ws s) (topic s) (replyTopic s) (reconnectDelay s)
    (reconnectTimer s) (intentionalClose s) (onMessageCallback s)
    (onStatusCallback s) (lastSince s) (watchdogTimer s) (clock s) (sockets s)
    (stored_since s) (storage_writable s) (polls s) (listeners s) v.

(** *** Persistence of the high-water mark *)

(** [const v = localStorage.getItem(SINCE_KEY);
     if (v) lastSince = parseInt(v, 10);] *)
Definition _loadLastSince (s : State) : State :=
  match stored_since s with
  | Some v =>
      if Js.truthy_string (Some v) then with_lastSince (Js.parseInt v) s
      else s
  | None => s
  end.

(** [try { localStorage.setItem(SINCE_KEY, v); } catch { }]. *)
Definition localStorage_setItem_since (v : string) (s : State) : State :=
  if storage_writable s then with_stored_since (Some v) s else s.

(** [if (!lastSince || ts > lastSince) { lastSince = ts; ... setItem ... }]. *)
Definition _saveLastSince (ts : Z) (s : State) : State :=
  if negb (Js.truthy_number (lastSince s))
     || match lastSince s with Some l => l <? ts | None => false end
  then localStorage_setItem_since (Js.String_of_number ts)
         (with_lastSince (Some ts) s)
  else s.

(** [if (onStatusCallback) onStatusCallback(status);] *)
Definition setStatus (status : string) (s : State) : State :=
  match onStatusCallback s with
  | Some f => with_client (f status (client s)) s
  | None => s
  end.

(** *** Timers and sockets *)

Definition clearTimeout (t : option Timer) : option Timer :=
  match t with
  | Some t => Some (mkTimer false (delay t) (set_at t))
  | None => None
  end.

Definition setTimeout (ms : Z) (s : State) : option Timer :=
  Some (mkTimer true ms (clock s)).

(** [sock.close()]: only a socket that is connecting or open starts to
    close. *)
Definition WebSocket_close (sock : WebSocket) : WebSocket :=
  match readyState sock with
  | CONNECTING | OPEN => mkWebSocket (url sock) CLOSING
  | _ => sock
  end.

(** [if (ws) ws.close()]. *)
Definition ws_close (s : State) : State :=
  match ws s with
  | Some i => with_sockets (alter WebSocket_close i (sockets s)) s
  | None => s
  end.

Definition ws_readyState (s : State) : option ReadyState :=
  match ws s with
  | Some i => readyState <$> sockets s !! i
  | None => None
  end.

(** [if (watchdogTimer) clearTimeout(watchdogTimer);
     watchdogTimer = setTimeout(() => { if (ws) ws.close(); }, WATCHDOG_MS);] *)
Definition _resetWatchdog (s : State) : State :=
  let s := with_watchdogTimer (clearTimeout (watchdogTimer s)) s in
  with_watchdogTimer (setTimeout WATCHDOG_MS s) s.

(** The callback armed by [_resetWatchdog]. *)
Definition watchdog_callback (s : State) : State := ws_close s.

(** [if (watchdogTimer) { clearTimeout(watchdogTimer); watchdogTimer = null; }] *)
Definition _clearWatchdog (s : State) : State :=
  match watchdogTimer s with
  | Some _ => with_watchdogTimer None s
  | None => s
  end.

(** *** Ingestion *)

(** Builds the notification, then
    [if (msg.time) _saveLastSince(msg.time);
     if (onMessageCallback) onMessageCallback(notification);]
    It throws, before it has changed anything, when [extractReqId] does. *)
Definition _processMessage (msg : RawMsg) (s : State) : Js.Completion State :=
  let type := detectType msg in
  let actions := extractActions msg in
  match extractReqId actions with
  | Js.Throw => Js.Throw
  | Js.Normal reqId =>
      let notification :=
        Notif.mk
          (Js.string_or (msg_id msg) (Js.String_of_number (clock s)))
          type
          (Js.string_or (msg_title msg) "")
          (Js.string_or (msg_message msg) "")
          (match msg_time msg with
           | Some t => if t =? 0 then clock s else t * 1000
           | None => clock s
           end)
          (Js.number_or (msg_priority msg) 3)
          actions
          reqId
          false
          None in
      let s :=
        match msg_time msg with
        | Some t => if t =? 0 then s else _saveLastSince t s
        | None => s
        end in
      Js.Normal
        match onMessageCallback s with
        | Some f => with_client (f notification (client s)) s
        | None => s
        end
  end.

(** [msg.event && msg.event !== "message"]. *)
Definition not_a_message (msg : RawMsg) : bool :=
  match msg_event msg with
  | Some e => negb (String.eqb e "") && negb (String.eqb e "message")
  | None => false
  end.

(** The body shared by [ws.onmessage] and by the loop of [_fetchRecent]:
    parse, skip what is not a message, ingest; whatever is thrown is caught
    and the frame dropped. *)
Definition ingest (f : Frame) (s : State) : State :=
  match f with
  | None => s
  | Some msg =>
      if not_a_message msg then s
      else match _processMessage msg s with
           | Js.Normal s' => s'
           | Js.Throw => s
           end
  end.

(** The [since] of [_fetchRecent]:
    [const fallback = Math.floor(Date.now() / 1000) - 3600;
     const since = lastSince ? Math.max(lastSince - 5, fallback) : fallback;] *)
Definition _fetchRecent_since (s : State) : Z :=
  let fallback := clock s / 1000 - 3600 in
  match lastSince s with
  | Some l => if l =? 0 then fallback else Z.max (l - 5) fallback
  | None => fallback
  end.

Definition poll_url (s : State) : string :=
  "https://ntfy.sh/" +:+ topic s +:+ "/json?poll=1&since="
    +:+ Js.String_of_number (_fetchRecent_since s).

(** What [_fetchRecent] does once the response is there: nothing when the
    request failed or [!res.ok], else the loop over the lines. The two
    [await]s, of [fetch] and of [res.text()], are taken as one. *)
Definition _fetchRecent_resume (r : FetchResult) : Task State unit :=
  match r with
  | Rejected => Ret tt
  | Resolved res =>
      if negb (ok res) then Ret tt
      else match lines res with
           | None => Ret tt
           | Some ls => modify (fun s => fold_left (fun s f => ingest f s) ls s)
           end
  end.

Definition _fetchRecent : Task State unit :=
  Get (fun s => Fetch (GET (poll_url s)) _fetchRecent_resume).

(** A call of an [async] function whose promise is dropped: it runs up to
    its first [await]; the request it then waits for is kept in [polls]. *)
Definition detach (t : Task State unit) (s : State) : State :=
  match advance t s with
  | (s', AwaitFetch req _) => with_polls (polls s' ++ [mkPoll req false]) s'
  | (s', _) => s'
  end.

(** *** Connection life cycle *)

(** Returns at once when [ws] is open or connecting; else
    [setStatus("reconnecting"); ws = new WebSocket(...); ...; _fetchRecent();] *)
Definition _connect (s : State) : State :=
  match ws_readyState s with
  | Some OPEN | Some CONNECTING => s
  | _ =>
      let s := setStatus "reconnecting" s in
      let s :=
        with_ws (Some (length (sockets s)))
          (with_sockets
             (sockets s
                ++ [mkWebSocket ("wss://ntfy.sh/" +:+ topic s +:+ "/ws")
                      CONNECTING]) s) in
      detach _fetchRecent s
  end.

(** [if (reconnectTimer) clearTimeout(reconnectTimer);
     reconnectDelay = 1000; _connect();] *)
Definition _forceReconnect (s : State) : State :=
  let s := with_reconnectTimer (clearTimeout (reconnectTimer s)) s in
  let s := with_reconnectDelay 1000 s in
  _connect s.

(** [reconnectDelay = 1000; setStatus("connected"); _resetWatchdog();] *)
Definition ws_onopen (s : State) : State :=
  let s := with_reconnectDelay 1000 s in
  let s := setStatus "connected" s in
  _resetWatchdog s.

(** [_resetWatchdog(); try { ... _processMessage(msg); } catch { }]. *)
Definition ws_onmessage (f : Frame) (s : State) : State :=
  let s := _resetWatchdog s in
  ingest f s.

(** [if (reconnectTimer) clearTimeout(reconnectTimer);
     reconnectTimer = setTimeout(callback, reconnectDelay);] *)
Definition _scheduleReconnect (s : State) : State :=
  let s := with_reconnectTimer (clearTimeout (reconnectTimer s)) s in
  with_reconnectTimer (setTimeout (reconnectDelay s) s) s.

(** The callback armed by [_scheduleReconnect]:
    [reconnectDelay = Math.min(reconnectDelay * 2, MAX_RECONNECT_DELAY);
     _connect();] *)
Definition reconnect_callback (s : State) : State :=
  let s :=
    with_reconnectDelay
      (Z.min (reconnectDelay s * 2) MAX_RECONNECT_DELAY) s in
  _connect s.

(** [_clearWatchdog();
     if (!intentionalClose) { setStatus("disconnected"); _scheduleReconnect(); }] *)
Definition ws_onclose (s : State) : State :=
  let s := _clearWatchdog s in
  if negb (intentionalClose s)
  then _scheduleReconnect (setStatus "disconnected" s)
  else s.

(** The [visibilitychange] listener registered by [connect]. *)
Definition on_visibilitychange (visible : bool) (s : State) : State :=
  if visible && negb (intentionalClose s)
  then match ws_readyState s with
       | None | Some CLOSED | Some CLOSING => _forceReconnect s
       | _ => s
       end
  else s.

(** The [online] listener registered by [connect]. *)
Definition on_online (s : State) : State :=
  if negb (intentionalClose s) then _forceReconnect s else s.

Record Config := mkConfig {
  cfg_topic : string;
  cfg_replyTopic : string;
  cfg_onMessage : option (Notif.t -> Client -> Client);
  cfg_onStatus : option (string -> Client -> Client) }.

Definition connect (cfg : Config) (s : State) : State :=
  let s := with_topic (cfg_topic cfg) s in
  let s := with_replyTopic (cfg_replyTopic cfg) s in
  let s := with_onMessageCallback (cfg_onMessage cfg) s in
  let s := with_onStatusCallback (cfg_onStatus cfg) s in
  let s := with_intentionalClose false s in
  let s := _loadLastSince s in
  let s := _connect s in
  with_listeners (S (listeners s)) s.

(** [try { await fetch(url, { method: "POST", body }); return true; }
     catch { return false; }] *)
Definition respond (body : string) : Task State bool :=
  Get (fun s =>
    Fetch (POST ("https://ntfy.sh/" +:+ replyTopic s) body) (fun r =>
      match r with
      | Resolved _ => Ret true
      | Rejected => Ret false
      end)).

(** [intentionalClose = true; _clearWatchdog();
     if (reconnectTimer) clearTimeout(reconnectTimer);
     if (ws) ws.close(); setStatus("disconnected");] *)
Definition disconnect (s : State) : State :=
  let s := with_intentionalClose true s in
  let s := _clearWatchdog s in
  let s := with_reconnectTimer (clearTimeout (reconnectTimer s)) s in
  let s := ws_close s in
  setStatus "disconnected" s.

(** The state when the script has been loaded. *)
Definition initial (now : Z) (stored : option string) (c : Client) : State :=
  mkState None "" "" 1000 None false None None None None
    now [] stored true [] 0%nat c.

(** *** The event loop

    What the browser may deliver to the module, and when: an event of a
    socket in the state that allows it, a timer that is pending and due, the
    response of a poll that is in flight, a wake signal. *)

Inductive Event :=
| SocketOpen (i : nat)
| SocketMessage (i : nat) (f : Frame)
| SocketClose (i : nat)
| ReconnectTimer
| WatchdogTimer
| PollResponse (j : nat) (r : FetchResult)
| VisibilityChange (visible : bool)
| Online.

Definition due (now : Z) (t : option Timer) : bool :=
  match t with
  | Some t => pending t && (set_at t + delay t <=? now)
  | None => false
  end.

Definition fired (t : option Timer) : option Timer := clearTimeout t.

Definition set_readyState (i : nat) (r : ReadyState) (s : State) : State :=
  with_sockets (alter (fun sock => mkWebSocket (url sock) r) i (sockets s)) s.

Definition handle (e : Event) (s : State) : option State :=
  match e with
  | SocketOpen i =>
      match readyState <$> sockets s !! i with
      | Some CONNECTING => Some (ws_onopen (set_readyState i OPEN s))
      | _ => None
      end
  | SocketMessage i f =>
      match readyState <$> sockets s !! i with
      | Some OPEN => Some (ws_onmessage f s)
      | _ => None
      end
  | SocketClose i =>
      match readyState <$> sockets s !! i with
      | Some CLOSED | None => None
      | Some _ => Some (ws_onclose (set_readyState i CLOSED s))
      end
  | ReconnectTimer =>
      if due (clock s) (reconnectTimer s)
      then Some (reconnect_callback
                   (with_reconnectTimer (fired (reconnectTimer s)) s))
      else None
  | WatchdogTimer =>
      if due (clock s) (watchdogTimer s)
      then Some (watchdog_callback
                   (with_watchdogTimer (fired (watchdogTimer s)) s))
      else None
  | PollResponse j r =>
      match polls s !! j with
      | Some p =>
          if settled p then None
          else Some (fst (advance (_fetchRecent_resume r)
                  (with_polls (<[j := mkPoll (request p) true]> (polls s)) s)))
      | None => None
      end
  | VisibilityChange visible =>
      Some (Nat.iter (listeners s) (on_visibilitychange visible) s)
  | Online => Some (Nat.iter (listeners s) on_online s)
  end.

(** An event is delivered at a time that is not before the clock. *)
Definition dispatch (now : Z) (e : Event) (s : State) : option State :=
  if clock s <=? now then handle e (with_clock now s) else None.

Fixpoint run (evs : list (Z * Event)) (s : State) : option State :=
  match evs with
  | [] => Some s
  | (now, e) :: evs' =>
      match dispatch now e s with
      | Some s' => run evs' s'
      | None => None
      end
  end.

End WithClient.
Arguments State : clear implicits.
Arguments Config : clear implicits.
End Ntfy.

(** ** The orchestrator of [js/app.js] *)

Module App.
Import Async.

Definition MAX_HISTORY : nat := 100.

Record Settings := mkSettings {
  topic : string;
  replyTopic : string;
  vibrate : bool;
  sound : bool }.

(** Calls into the presentation layer and the device. *)
Inductive UiCall :=
| SetStatus (status : string)
| Vibrate (pattern : list Z)
| PlayBeep
| RenderDashboard (pendingNotifs regularNotifs : list Notif.t)
| RenderHistory (cards : list Notif.t).

(** [notifications] is the array of the source, holding references into
    [heap]; [seenIds] is the [Set] in insertion order; [stored_history] and
    [stored_seen] are the two entries of [localStorage], [JSON.stringify]
    and [JSON.parse] taken as inverse of each other; [ui] lists the calls
    made so far, oldest first. *)
Record State := mkState {
  notifications : list nat;
  seenIds : list string;
  settings : Settings;
  heap : list Notif.t;
  stored_history : option (list Notif.t);
  stored_seen : option (list string);
  navigator_vibrate : bool;
  ui : list UiCall }.

Definition with_notifications (v : list nat) (s : State) : State :=
  mkState v (seenIds s) (settings s) (heap s) (stored_history s)
    (stored_seen s) (navigator_vibrate s) (ui s).

Definition with_seenIds (v : list string) (s : State) : State :=
  mkState (notifications s) v (settings s) (heap s) (stored_history s)
    (stored_seen s) (navigator_vibrate s) (ui s).

Definition with_settings (v : Settings) (s : State) : State :=
  mkState (notifications s) (seenIds s) v (heap s) (stored_history s)
    (stored_seen s) (navigator_vibrate s) (ui s).

Definition with_heap (v : list Notif.t) (s : State) : State :=
  mkState (notifications s) (seenIds s) (settings s) v (stored_history s)
    (stored_seen s) (navigator_vibrate s) (ui s).

Definition with_stored_history (v : option (list Notif.t)) (s : State) : State :=
  mkState (notifications s) (seenIds s) (settings s) (heap s) v
    (stored_seen s) (navigator_vibrate s) (ui s).

Definition with_stored_seen (v : option (list string)) (s : State) : State :=
  mkState (notifications s) (seenIds s) (settings s) (heap s)
    (stored_history s) v (navigator_vibrate s) (ui s).

Definition with_navigator_vibrate (v : bool) (s : State) : State :=
  mkState (notifications s) (seenIds s) (settings s) (heap s)
    (stored_history s) (stored_seen s) v (ui s).

Definition with_ui (v : list UiCall) (s : State) : State :=
  mkState (notifications s) (seenIds s) (settings s) (heap s)
    (stored_history s) (stored_seen s) (navigator_vibrate s) v.

Definition Set_has (x : string) (set : list string) : bool :=
  bool_decide (x ∈ set).

Definition Set_add (x : string) (set : list string) : list string :=
  if Set_has x set then set else set ++ [x].

(** The objects the array refers to. *)
Definition objects (st : State) : list Notif.t :=
  omap (fun r => heap st !! r) (notifications st).

Definition has_id (i : string) (st : State) (r : nat) : bool :=
  match heap st !! r with
  | Some n => String.eqb (Notif.id n) i
  | None => false
  end.

(** [notifications.find((n) => n.id === i)]. *)
Definition find_by_id (i : string) (st : State) : option nat :=
  List.find (has_id i st) (notifications st).

Definition is_actionable (t : NotifType) : bool :=
  match t with
  | Approve | Permission | Choice => true
  | _ => false
  end.

Definition call (c : UiCall) (st : State) : State :=
  with_ui (ui st ++ [c]) st.

Definition renderDashboard (st : State) : State :=
  let pendingNotifs :=
    List.filter
      (fun n => negb (Notif.answered n) && is_actionable (Notif.type n))
      (objects st) in
  let regularNotifs :=
    List.filter
      (fun n => Notif.answered n || negb (is_actionable (Notif.type n)))
      (objects st) in
  call (RenderDashboard pendingNotifs regularNotifs) st.

Definition renderHistory (st : State) : State :=
  call (RenderHistory (objects st)) st.

Definition saveHistory (st : State) : State :=
  with_stored_history (Some (take MAX_HISTORY (objects st))) st.

(** [[...seenIds].slice(-200)]. *)
Definition saveSeen (st : State) : State :=
  with_stored_seen
    (Some (drop (length (seenIds st) - 200) (seenIds st))) st.

Definition playBeep (st : State) : State := call PlayBeep st.

(** [if (seenIds.has(id)) return; seenIds.add(id); saveSeen();
     if (notifications.find(...)) return;
     notifications.unshift(notification); ... vibrate, beep ...;
     renderDashboard(); saveHistory();] *)
Definition handleMessage (notification : Notif.t) (st : State) : State :=
  if Set_has (Notif.id notification) (seenIds st) then st
  else
    let st := with_seenIds (Set_add (Notif.id notification) (seenIds st)) st in
    let st := saveSeen st in
    match find_by_id (Notif.id notification) st with
    | Some _ => st
    | None =>
        let st :=
          with_notifications (length (heap st) :: notifications st)
            (with_heap (heap st ++ [notification]) st) in
        let st :=
          if is_actionable (Notif.type notification)
          then
            let st :=
              if vibrate (settings st) && navigator_vibrate st
              then call (Vibrate [200; 100; 200]) st
              else st in
            if sound (settings st) then playBeep st else st
          else st in
        saveHistory (renderDashboard st)
    end.

Definition UI_setStatus (status : string) (st : State) : State :=
  call (SetStatus status) st.

(** The page: the connection manager with the orchestrator behind its
    callbacks. *)
Definition World := Ntfy.State State.

Definition connectNtfy (w : World) : World :=
  Ntfy.connect
    (Ntfy.mkConfig
       (topic (settings (Ntfy.client w)))
       (replyTopic (settings (Ntfy.client w)))
       (Some handleMessage)
       (Some UI_setStatus)) w.

(** [notification.answered = true; notification.answeredWith = b]. *)
Definition set_answered (r : nat) (b : string) (st : State) : State :=
  with_heap (alter (Notif.set_answer b) r (heap st)) st.

Definition on_client (f : State -> State) (w : World) : World :=
  Ntfy.with_client (f (Ntfy.client w)) w.

(** [const notification = notifications.find((n) => n.id === notifId);
     if (!notification || notification.answered) return;
     const ok = await Ntfy.respond(responseBody);
     if (!ok) { await sleep(1000); await Ntfy.respond(responseBody); }
     notification.answered = true; notification.answeredWith = responseBody;
     saveHistory(); renderDashboard();] *)
Definition handleResponse (notifId responseBody : string) : Task World unit :=
  Get (fun w =>
    match find_by_id notifId (Ntfy.client w) with
    | None => Ret tt
    | Some r =>
        match heap (Ntfy.client w) !! r with
        | None => Ret tt
        | Some notification =>
            if Notif.answered notification then Ret tt
            else
              ok ← Ntfy.respond responseBody;
              (if negb ok
               then Sleep 1000 (Ntfy.respond responseBody ≫= fun _ => Ret tt)
               else Ret tt) ≫= fun _ =>
              modify (on_client (fun st =>
                renderDashboard (saveHistory (set_answered r responseBody st))))
        end
    end).

(** The click handler of the "clear history" button. *)
Definition on_clear_history (st : State) : State :=
  let st := with_notifications [] st in
  let st := with_seenIds [] st in
  let st := saveSeen st in
  let st := saveHistory st in
  let st := renderDashboard st in
  renderHistory st.

Definition loadHistory (st : State) : State :=
  match stored_history st with
  | Some parsed =>
      let st :=
        with_notifications (seq (length (heap st)) (length parsed))
          (with_heap (heap st ++ parsed) st) in
      with_seenIds
        (fold_left (fun set n => Set_add (Notif.id n) set) parsed (seenIds st))
        st
  | None => st
  end.

Definition loadSeen (st : State) : State :=
  match stored_seen st with
  | Some arr =>
      with_seenIds (fold_left (fun set i => Set_add i set) arr (seenIds st)) st
  | None => st
  end.

(** [init], without the set-up of the page. *)
Definition init (w : World) : World :=
  connectNtfy (on_client (fun st => loadSeen (loadHistory st)) w).

(** The state when the script has been loaded. *)
Definition initial (sett : Settings) (history : option (list Notif.t))
    (seen : option (list string)) (can_vibrate : bool) : State :=
  mkState [] [] sett [] history seen can_vibrate [].

End App.

(** * The vocabulary of the properties *)

(** ** Strings and tags *)

(** [hay] contains [needle]. *)
Definition contains (hay needle : string) : Prop :=
  exists pre post, hay = pre +:+ needle +:+ post.

Definition no_marker (tags : list string) : Prop :=
  ("lock" ∉ tags) /\ ("point_right" ∉ tags) /\ ("question" ∉ tags) /\
  ("white_check_mark" ∉ tags) /\ ("warning" ∉ tags).

Definition tagged (tags : list string) (title : string) : RawMsg :=
  mkRawMsg (Some "m1") None (Some title) None None None (Some tags) None.

Definition untagged (title : string) : RawMsg :=
  mkRawMsg (Some "m1") None (Some title) None None None None None.

(** ** The reply request *)

Section RespondVocabulary.
Context {Client : Type}.
Implicit Types s : Ntfy.State Client.

Definition reply_request s (body : string) : Async.Request :=
  Async.POST ("https://ntfy.sh/" +:+ Ntfy.replyTopic s) body.

End RespondVocabulary.

(** ** Views of the state of the connection manager *)

Section NtfyFramesVocabulary.
Context {Client : Type}.
Implicit Types s : Ntfy.State Client.
Import Ntfy.

(** The variables that steer the connection: everything but the high-water
    mark, its stored copy, the polls and the client. *)
Definition control s :=
  (ws s, sockets s, reconnectDelay s, reconnectTimer s, intentionalClose s,
   watchdogTimer s, clock s, listeners s).

(** The high-water mark and its stored copy. *)
Definition marks s := (lastSince s, stored_since s, storage_writable s).

Definition wiring s :=
  (topic s, replyTopic s, onMessageCallback s, onStatusCallback s).

End NtfyFramesVocabulary.

(** ** The high-water mark *)


Section HighWaterMarkVocabulary.
Context {Client : Type}.
Implicit Types s : Ntfy.State Client.
Import Ntfy.




End HighWaterMarkVocabulary.

(** ** A page with an old mark *)

(** The page is opened at 1700010000 (epoch seconds) with the mark
    1700000000 in storage, 10000 seconds old. *)
Definition stale_mark_page : Ntfy.State unit :=
  Ntfy.connect (Ntfy.mkConfig "alerts" "replies" None None)
    (Ntfy.initial 1700010000000 (Some "1700000000") tt).

(** ** Failed attempts *)

Section BackoffVocabulary.
Context {Client : Type}.
Implicit Types s : Ntfy.State Client.
Import Ntfy.



End BackoffVocabulary.

(** ** An undisturbed connection *)

Section WatchdogVocabulary.
Context {Client : Type}.
Implicit Types s : Ntfy.State Client.
Import Ntfy.




End WatchdogVocabulary.

(** ** The list of notifications and what the user is shown *)

Section DedupVocabulary.
Import App.
Implicit Types st : App.State.

(** Every notification in the list has its id in the seen-set. *)
Definition listed_are_seen st : Prop :=
  forall r, r ∈ notifications st ->
    exists n, heap st !! r = Some n /\ Notif.id n ∈ seenIds st.

(** The number of entries of the list with id [i]. *)
Definition count_id (i : string) st : nat :=
  length (List.filter (has_id i st) (notifications st)).





(** The calls that alert the user to an actionable notification. *)
Definition alerts (n : Notif.t) st : list UiCall :=
  if is_actionable (Notif.type n)
  then (if vibrate (settings st) && navigator_vibrate st
        then [Vibrate [200; 100; 200]] else [])
       ++ (if sound (settings st) then [PlayBeep] else [])
  else [].

End DedupVocabulary.

(** ** Deliveries *)

Section BothPathsVocabulary.
Context {Client : Type}.
Implicit Types s : Ntfy.State Client.
Import Ntfy.

(** The notification [_processMessage] builds at time [now], if it does not
    throw. *)
Definition notification_of (now : Z) (msg : RawMsg) : option Notif.t :=
  match extractReqId (extractActions msg) with
  | Js.Throw => None
  | Js.Normal reqId =>
      Some (Notif.mk
              (Js.string_or (msg_id msg) (Js.String_of_number now))
              (detectType msg)
              (Js.string_or (msg_title msg) "")
              (Js.string_or (msg_message msg) "")
              (match msg_time msg with
               | Some t => if t =? 0 then now else t * 1000
               | None => now
               end)
              (Js.number_or (msg_priority msg) 3)
              (extractActions msg)
              reqId false None)
  end.

(** The notification a frame, or a line of a poll response, hands to the
    callback. *)
Definition handed_frame (now : Z) (f : Frame) : option Notif.t :=
  match f with
  | Some msg => if not_a_message msg then None else notification_of now msg
  | None => None
  end.






Definition call_all (cb : Notif.t -> Client -> Client) (ns : list Notif.t)
    (c : Client) : Client :=
  fold_left (fun c n => cb n c) ns c.

End BothPathsVocabulary.

(** ** What the callbacks keep *)

(** Both registered callbacks keep [P]. *)
Definition callbacks_keep {Client} (P : Client -> Prop) (s : Ntfy.State Client)
    : Prop :=
  (forall cb, Ntfy.onMessageCallback s = Some cb ->
     forall n c, P c -> P (cb n c)) /\
  (forall f, Ntfy.onStatusCallback s = Some f ->
     forall st c, P c -> P (f st c)).

(** [P] holds of the client and is kept by the callbacks. *)
Definition client_inv {Client} (P : Client -> Prop) (s : Ntfy.State Client)
    : Prop :=
  callbacks_keep P s /\ P (Ntfy.client s).

(** ** Answers *)

Section ResponsesVocabulary.
Import Async Ntfy App.
Implicit Types w : World.

(** The end of [handleResponse]: mark, save, render. *)
Definition mark_answered (r : nat) (body : string) w : World :=
  on_client (fun st => renderDashboard (saveHistory (set_answered r body st))) w.

(** The notification [handleResponse] would answer: the first of the list
    with the id, when it is unanswered. *)
Definition answerable (notifId : string) w : option (nat * Notif.t) :=
  match find_by_id notifId (client w) with
  | Some r =>
      match heap (client w) !! r with
      | Some n => if Notif.answered n then None else Some (r, n)
      | None => None
      end
  | None => None
  end.

End ResponsesVocabulary.

(** ** Concrete pages and messages *)

Definition http_ok : Async.HttpResponse := Async.mkHttpResponse true 200 None.


Definition after (evs : list (Z * Ntfy.Event)) {Client} (s : Ntfy.State Client)
    : Ntfy.State Client :=
  default s (Ntfy.run evs s).


(** The page of the application, just started, with empty storage. *)
Definition fresh_page : App.World :=
  App.init
    (Ntfy.initial 1700000000000 None
       (App.initial (App.mkSettings "alerts" "replies" true true)
          None None true)).

(** The message of the end-to-end scenario of the specification. *)
Definition m1 : RawMsg :=
  mkRawMsg (Some "m1") (Some "message") (Some "Permission needed")
    (Some "Run the build?") (Some 1700000001) None (Some ["lock"])
    (Some [mkRawAction (Some "http") (Some "OK") (Some "OK_42");
           mkRawAction (Some "http") (Some "Deny") (Some "NOK_42");
           mkRawAction (Some "view") (Some "Open") None]).



(** Socket 0 has opened and delivered [m1]. *)
Definition page_with_m1 : App.World :=
  after [(1700000000100, Ntfy.SocketOpen 0);
         (1700000001200, Ntfy.SocketMessage 0 (Some m1))] fresh_page.

Definition answer_of (r : nat) (w : App.World) : option (bool * option string) :=
  (fun n => (Notif.answered n, Notif.answeredWith n))
    <$> App.heap (Ntfy.client w) !! r.

(** Two calls of [handleResponse] for the same notification, the second one
    made while the first awaits its POST; then the first POST resolves, then
    the second. The result lists the requests made and the answer recorded
    in the notification at [r] before, between and after the two
    completions. *)
Definition overlapping_responses (notifId b1 b2 : string) (r : nat)
    (w : App.World)
    : option (list Async.Request * list (option (bool * option string))) :=
  match Async.advance (App.handleResponse notifId b1) w with
  | (w1, Async.AwaitFetch req1 k1) =>
      match Async.advance (App.handleResponse notifId b2) w1 with
      | (w2, Async.AwaitFetch req2 k2) =>
          let w3 := (Async.advance (k1 (Async.Resolved http_ok)) w2).1 in
          let w4 := (Async.advance (k2 (Async.Resolved http_ok)) w3).1 in
          Some ([req1; req2], [answer_of r w; answer_of r w3; answer_of r w4])
      | _ => None
      end
  | _ => None
  end.

(** What [handleResponse] does when its first POST has settled. *)
Definition after_first_respond (r : nat) (body : string)
    (res : Async.FetchResult) : Async.Task App.World unit :=
  Async.bind
    match res with
    | Async.Resolved _ => Async.Ret true
    | Async.Rejected => Async.Ret false
    end
    (fun ok =>
       (if negb ok
        then Async.Sleep 1000
               (Ntfy.respond body ≫= fun _ => Async.Ret tt)
        else Async.Ret tt) ≫= fun _ =>
       Async.modify (App.on_client (fun st =>
         App.renderDashboard
           (App.saveHistory (App.set_answered r body st))))).

(** ** Concrete runs *)







(** * Properties *)

(** ** Strings *)

Lemma append_nil (t : string) : "" +:+ t = t.
Proof. reflexivity. Qed.

Lemma append_cons (c : ascii) (s t : string) :
  String c s +:+ t = String c (s +:+ t).
Proof. reflexivity. Qed.

Ltac str := rewrite ?append_cons, ?append_nil in *.

Lemma prefix_app (p s : string) :
  String.prefix p s = true <-> exists post, s = p +:+ post.
Proof.
  revert s. induction p as [|c p IH]; intros s.
  - split; [intros _; exists s; reflexivity | intros _; destruct s; reflexivity].
  - destruct s as [|d s]; simpl.
    + split; [discriminate | intros [post H]; discriminate].
    + destruct (ascii_dec c d) as [->|Hne].
      * rewrite IH. split; intros [post H]; exists post; str; congruence.
      * split; [discriminate | intros [post H]; str; congruence].
Qed.

Lemma String_includes_contains (hay needle : string) :
  Js.String_includes hay needle = true <-> contains hay needle.
Proof.
  unfold contains. induction hay as [|c hay IH]; cbn [Js.String_includes].
  - rewrite orb_false_r, prefix_app. split.
    + intros [post H]. exists "", post. exact H.
    + intros [pre [post H]]. destruct pre; str; [|discriminate].
      exists post. exact H.
  - rewrite orb_true_iff, prefix_app, IH. split.
    + intros [[post H] | [pre [post H]]].
      * exists "", post. exact H.
      * exists (String c pre), post. str. congruence.
    + intros [pre [post H]]. destruct pre as [|d pre]; str.
      * left. exists post. exact H.
      * right. exists pre, post. congruence.
Qed.

Lemma String_includes_not (hay needle : string) :
  Js.String_includes hay needle = false <-> ~ contains hay needle.
Proof.
  rewrite <- String_includes_contains.
  destruct (Js.String_includes hay needle); split; congruence.
Qed.




(** ** C8: classification *)

Ltac decide_tags :=
  repeat match goal with
  | |- context [Js.Array_includes ?l ?x] =>
      unfold Js.Array_includes at 1; case_bool_decide; try contradiction
  end.

(** C8. The classifier checks the tag markers in the order lock,
    point_right, question, white_check_mark, warning, and the first one
    present decides: permission, choice, approve, done, decision. A message
    with none of the markers (an untagged one in particular) whose title
    contains "Permission" is a permission; with no marker and none of the
    title words Permission, Vyber, Schvaleni, Hotovo it is a decision. *)
Theorem C8_detectType_precedence (msg : RawMsg) :
  let tags := Js.array_or (msg_tags msg) in
  let title := Js.string_or (msg_title msg) "" in
  ("lock" ∈ tags -> detectType msg = Permission) /\
  ("lock" ∉ tags -> "point_right" ∈ tags -> detectType msg = Choice) /\
  ("lock" ∉ tags -> "point_right" ∉ tags -> "question" ∈ tags ->
     detectType msg = Approve) /\
  ("lock" ∉ tags -> "point_right" ∉ tags -> "question" ∉ tags ->
     "white_check_mark" ∈ tags -> detectType msg = Done) /\
  ("lock" ∉ tags -> "point_right" ∉ tags -> "question" ∉ tags ->
     "white_check_mark" ∉ tags -> "warning" ∈ tags ->
     detectType msg = Decision) /\
  (no_marker tags -> contains title "Permission" ->
     detectType msg = Permission) /\
  (no_marker tags -> ~ contains title "Permission" ->
     ~ contains title "Vyber" -> ~ contains title "Schvaleni" ->
     ~ contains title "Hotovo" -> detectType msg = Decision).
Proof.
  intros tags title. subst tags title. unfold detectType.
  repeat split; intros;
    try match goal with
        | H : no_marker _ |- _ => destruct H as (? & ? & ? & ? & ?)
        end;
    decide_tags; try reflexivity.
  - match goal with
    | H : contains _ _ |- _ => apply String_includes_contains in H; rewrite H
    end.
    reflexivity.
  - repeat match goal with
    | H : ~ contains _ _ |- _ => apply String_includes_not in H; rewrite H
    end.
    reflexivity.
Qed.

Lemma C8_detectType_precedence_witness :
  detectType (tagged ["warning"; "lock"] "Hotovo") = Permission /\
  detectType (tagged ["question"; "point_right"] "") = Choice /\
  detectType (tagged ["question"] "") = Approve /\
  detectType (tagged ["warning"; "white_check_mark"] "") = Done /\
  detectType (tagged ["warning"] "Permission") = Decision /\
  detectType (untagged "[app] Permission needed") = Permission /\
  detectType (untagged "Build finished") = Decision.
Proof.
  refine (conj _ (conj _ (conj _ (conj _ (conj _ (conj _ _)))))).
  - destruct (C8_detectType_precedence (tagged ["warning"; "lock"] "Hotovo"))
      as (H & _).
    apply H. compute_done.
  - destruct (C8_detectType_precedence (tagged ["question"; "point_right"] ""))
      as (_ & H & _).
    apply H; compute_done.
  - destruct (C8_detectType_precedence (tagged ["question"] ""))
      as (_ & _ & H & _).
    apply H; compute_done.
  - destruct
      (C8_detectType_precedence (tagged ["warning"; "white_check_mark"] ""))
      as (_ & _ & _ & H & _).
    apply H; compute_done.
  - destruct (C8_detectType_precedence (tagged ["warning"] "Permission"))
      as (_ & _ & _ & _ & H & _).
    apply H; compute_done.
  - destruct (C8_detectType_precedence (untagged "[app] Permission needed"))
      as (_ & _ & _ & _ & _ & H & _).
    apply H.
    + unfold no_marker. compute_done.
    + apply String_includes_contains. reflexivity.
  - destruct (C8_detectType_precedence (untagged "Build finished"))
      as (_ & _ & _ & _ & _ & _ & H).
    apply H.
    + unfold no_marker. compute_done.
    + apply String_includes_not. reflexivity.
    + apply String_includes_not. reflexivity.
    + apply String_includes_not. reflexivity.
    + apply String_includes_not. reflexivity.
Defined.

(** ** C9: correlation id *)



(** ** C10: what [respond] returns *)

Section Respond.
Context {Client : Type}.
Implicit Types s : Ntfy.State Client.

(** C10. [respond] makes one POST of the body to the reply topic; whenever
    the request resolves, whatever the status of the response, it returns
    true; it returns false exactly when the request rejects. *)
Theorem C10_respond_ignores_status s (body : string) :
  (forall res,
     Async.exec (Ntfy.respond body) [Async.Resolved res] s
     = Some (s, true, [Async.Fetched (reply_request s body) (Async.Resolved res)])) /\
  Async.exec (Ntfy.respond body) [Async.Rejected] s
  = Some (s, false, [Async.Fetched (reply_request s body) Async.Rejected]) /\
  (forall r s' b tr,
     Async.exec (Ntfy.respond body) [r] s = Some (s', b, tr) ->
     b = false <-> r = Async.Rejected).
Proof.
  split; [reflexivity|]. split; [reflexivity|].
  intros r s' b tr. destruct r; simpl; intros [= <- <- <-]; split; congruence.
Qed.

End Respond.

Lemma C10_respond_ignores_status_witness :
  false = false <-> Async.Rejected = Async.Rejected.
Proof.
  destruct (C10_respond_ignores_status
              (Ntfy.initial 0 None tt) "OK_42") as (_ & _ & H).
  apply (H Async.Rejected (Ntfy.initial 0 None tt) false
           [Async.Fetched (reply_request (Ntfy.initial 0 None tt) "OK_42")
              Async.Rejected]).
  reflexivity.
Defined.

(** ** What each handler leaves alone *)

Section NtfyFrames.
Context {Client : Type}.
Implicit Types s : Ntfy.State Client.
Import Ntfy.

Lemma setStatus_control st s : control (setStatus st s) = control s.
Proof. unfold setStatus. destruct (onStatusCallback s); reflexivity. Qed.

Lemma setStatus_marks st s : marks (setStatus st s) = marks s.
Proof. unfold setStatus. destruct (onStatusCallback s); reflexivity. Qed.

Lemma setStatus_wiring st s : wiring (setStatus st s) = wiring s.
Proof. unfold setStatus. destruct (onStatusCallback s); reflexivity. Qed.


Lemma _saveLastSince_wiring ts s : wiring (_saveLastSince ts s) = wiring s.
Proof.
  unfold _saveLastSince, localStorage_setItem_since.
  destruct (_ || _); [|reflexivity]. simpl.
  destruct (storage_writable s); reflexivity.
Qed.


Lemma _processMessage_wiring msg s s' :
  _processMessage msg s = Js.Normal s' -> wiring s' = wiring s.
Proof.
  unfold _processMessage. destruct (extractReqId _); [|discriminate].
  intros [= <-].
  set (s1 := match msg_time msg with Some t => _ | None => _ end).
  assert (H1 : wiring s1 = wiring s).
  { subst s1. destruct (msg_time msg) as [t|]; [|reflexivity].
    destruct (t =? 0); [reflexivity|]. apply _saveLastSince_wiring. }
  rewrite <- H1. destruct (onMessageCallback s1); reflexivity.
Qed.


Lemma ingest_wiring f s : wiring (ingest f s) = wiring s.
Proof.
  unfold ingest. destruct f as [msg|]; [|reflexivity].
  destruct (not_a_message msg); [reflexivity|].
  destruct (_processMessage msg s) eqn:H; [|reflexivity].
  eapply _processMessage_wiring, H.
Qed.


Lemma ingest_all_wiring ls s :
  wiring (fold_left (fun s f => ingest f s) ls s) = wiring s.
Proof.
  revert s. induction ls as [|f ls IH]; intros s; simpl; [reflexivity|].
  rewrite IH. apply ingest_wiring.
Qed.

End NtfyFrames.

Section NtfyFrames2.
Context {Client : Type}.
Implicit Types s : Ntfy.State Client.
Import Ntfy.

Ltac by_cases_on_state :=
  unfold _connect, _forceReconnect, reconnect_callback, ws_onopen, ws_onclose,
    _scheduleReconnect, _resetWatchdog, _clearWatchdog, ws_close,
    watchdog_callback, on_visibilitychange, on_online, set_readyState, detach,
    disconnect, setStatus, ws_readyState;
  simpl;
  repeat match goal with
  | |- context [match ?x with _ => _ end] => destruct x eqn:?; simpl
  end;
  try reflexivity.


Lemma _connect_wiring s : wiring (_connect s) = wiring s.
Proof. by_cases_on_state. Qed.


Lemma _forceReconnect_wiring s : wiring (_forceReconnect s) = wiring s.
Proof. unfold _forceReconnect. rewrite _connect_wiring. reflexivity. Qed.


Lemma reconnect_callback_wiring s : wiring (reconnect_callback s) = wiring s.
Proof. unfold reconnect_callback. rewrite _connect_wiring. reflexivity. Qed.


Lemma ws_onopen_wiring s : wiring (ws_onopen s) = wiring s.
Proof. by_cases_on_state. Qed.


Lemma ws_onclose_wiring s : wiring (ws_onclose s) = wiring s.
Proof. by_cases_on_state. Qed.


Lemma ws_close_wiring s : wiring (ws_close s) = wiring s.
Proof. by_cases_on_state. Qed.


Lemma on_visibilitychange_wiring v s :
  wiring (on_visibilitychange v s) = wiring s.
Proof.
  unfold on_visibilitychange.
  destruct (v && _); [|reflexivity].
  destruct (ws_readyState s) as [[]|]; try reflexivity;
    apply _forceReconnect_wiring.
Qed.


Lemma on_online_wiring s : wiring (on_online s) = wiring s.
Proof.
  unfold on_online. destruct (negb _); [|reflexivity].
  apply _forceReconnect_wiring.
Qed.

Lemma iter_preserves {A} (view : Ntfy.State Client -> A)
    (f : Ntfy.State Client -> Ntfy.State Client) (n : nat) s :
  (forall s, view (f s) = view s) -> view (Nat.iter n f s) = view s.
Proof.
  intros Hf. induction n as [|n IH]; simpl; [reflexivity|].
  rewrite Hf. exact IH.
Qed.

End NtfyFrames2.

(** ** [String(n)] and [parseInt] *)








(** ** C7: the high-water mark *)



Section HighWaterMark.
Context {Client : Type}.
Implicit Types s : Ntfy.State Client.
Import Ntfy.
















End HighWaterMark.

(** ** C6: the window of the catch-up poll *)

Section CatchUp.
Context {Client : Type}.
Implicit Types s : Ntfy.State Client.
Import Ntfy.

(** C6, as amended. The catch-up poll asks for the messages since the later
    of the high-water mark minus 5 seconds and the time one hour ago: the
    mark minus 5 seconds when that lies within the last hour, one hour ago
    otherwise; without a mark (none, or the falsy 0) it asks for the
    messages since one hour ago. *)
Theorem C6_catch_up_window s :
  let fallback := clock s / 1000 - 3600 in
  Async.advance _fetchRecent s
  = (s, Async.AwaitFetch
          (Async.GET ("https://ntfy.sh/" +:+ topic s +:+ "/json?poll=1&since="
                        +:+ Js.String_of_number (_fetchRecent_since s)))
          _fetchRecent_resume) /\
  (forall l, lastSince s = Some l -> l <> 0 ->
     _fetchRecent_since s = Z.max (l - 5) fallback /\
     (fallback <= l - 5 -> _fetchRecent_since s = l - 5) /\
     (l - 5 < fallback -> _fetchRecent_since s = fallback)) /\
  (lastSince s = None \/ lastSince s = Some 0 ->
     _fetchRecent_since s = fallback).
Proof.
  intros fallback. split; [reflexivity|]. unfold _fetchRecent_since. split.
  - intros l -> Hl. destruct (Z.eqb_spec l 0); [contradiction|].
    fold fallback. repeat split; lia.
  - intros [-> | ->]; reflexivity.
Qed.

End CatchUp.

(** C6 as stated fails: with a high-water mark that is more than an hour
    old the poll does not start at the mark minus 5 seconds, but one hour
    back. *)
Lemma C6_counterexample :
  Ntfy.lastSince stale_mark_page = Some 1700000000 /\
  Ntfy.request <$> Ntfy.polls stale_mark_page
  = [Async.GET "https://ntfy.sh/alerts/json?poll=1&since=1700006400"] /\
  Ntfy._fetchRecent_since stale_mark_page <> 1700000000 - 5.
Proof. split; [|split]; [reflexivity | reflexivity | discriminate]. Qed.

Lemma C6_catch_up_window_witness :
  Ntfy._fetchRecent_since stale_mark_page = 1700010000 - 3600.
Proof.
  destruct (C6_catch_up_window stale_mark_page) as (_ & H & _).
  destruct (H 1700000000) as (_ & _ & Hold);
    [reflexivity | discriminate |].
  apply Hold. vm_compute. reflexivity.
Defined.

(** ** C2: reconnection backoff *)

Section Backoff.
Context {Client : Type}.
Implicit Types s : Ntfy.State Client.
Import Ntfy.









End Backoff.

(** ** C3: the staleness watchdog *)

Section Watchdog.
Context {Client : Type}.
Implicit Types s : Ntfy.State Client.
Import Ntfy.












End Watchdog.

(** ** C1: one notification for each message id *)

Section Dedup.
Import App.
Implicit Types st : App.State.

Lemma handleMessage_seen n st :
  Notif.id n ∈ seenIds st -> handleMessage n st = st.
Proof.
  intros H. unfold handleMessage, Set_has.
  rewrite bool_decide_eq_true_2 by assumption. reflexivity.
Qed.

Lemma find_none_unseen i st :
  listed_are_seen st -> i ∉ seenIds st ->
  List.find (has_id i st) (notifications st) = None /\ count_id i st = 0%nat.
Proof.
  intros Hinv Hi. unfold count_id.
  assert (H : forall r, r ∈ notifications st -> has_id i st r = false).
  { intros r Hr. destruct (Hinv r Hr) as (n & Hn & Hs). unfold has_id.
    rewrite Hn. destruct (String.eqb_spec (Notif.id n) i); [|reflexivity].
    subst i. contradiction. }
  revert H. generalize (notifications st) as l.
  induction l as [|r l IH]; intros H; simpl; [auto|].
  rewrite (H r) by (left). apply IH. intros r' Hr'. apply H. right. exact Hr'.
Qed.


(** What the handler does with a notification whose id is new. *)
Lemma handleMessage_fresh n st :
  listed_are_seen st -> Notif.id n ∉ seenIds st ->
  let st' := handleMessage n st in
  notifications st' = length (heap st) :: notifications st /\
  heap st' = heap st ++ [n] /\
  seenIds st' = seenIds st ++ [Notif.id n] /\
  (exists p r, ui st' = ui st ++ alerts n st ++ [RenderDashboard p r]) /\
  settings st' = settings st /\ navigator_vibrate st' = navigator_vibrate st.
Proof.
  intros Hinv Hi st'. subst st'. unfold handleMessage, Set_has, Set_add, Set_has.
  rewrite !bool_decide_eq_false_2 by assumption.
  unfold find_by_id.
  assert (Hf : List.find
                 (has_id (Notif.id n)
                    (saveSeen (with_seenIds (seenIds st ++ [Notif.id n]) st)))
                 (notifications
                    (saveSeen (with_seenIds (seenIds st ++ [Notif.id n]) st)))
               = None)
    by (apply (find_none_unseen (Notif.id n) st Hinv Hi)).
  rewrite Hf. unfold alerts, saveHistory, renderDashboard, playBeep, call.
  simpl.
  destruct (is_actionable (Notif.type n)); simpl;
    [destruct (vibrate (settings st) && navigator_vibrate st); simpl;
     destruct (sound (settings st)); simpl|];
    rewrite <- ?app_assoc; simpl; repeat split; eauto.
Qed.

Lemma handleMessage_keeps_seen n st :
  listed_are_seen st -> listed_are_seen (handleMessage n st).
Proof.
  intros Hinv. destruct (decide (Notif.id n ∈ seenIds st)) as [Hs|Hs].
  - rewrite handleMessage_seen by assumption. exact Hinv.
  - destruct (handleMessage_fresh n st Hinv Hs) as (Hn & Hh & Hs' & _).
    intros r. rewrite Hn, Hh, Hs'. intros Hr.
    apply elem_of_cons in Hr as [-> | Hr].
    + exists n. split; [apply list_lookup_middle; reflexivity|].
      apply elem_of_app. right. left.
    + destruct (Hinv r Hr) as (m & Hm & Hms). exists m. split.
      * apply lookup_app_l_Some, Hm.
      * apply elem_of_app. left. exact Hms.
Qed.




(** The handler never touches an object that is already in the heap. *)
Lemma handleMessage_heap n st r m :
  heap st !! r = Some m -> heap (handleMessage n st) !! r = Some m.
Proof.
  intros Hm. unfold handleMessage. destruct (Set_has _ _); [exact Hm|].
  destruct (find_by_id _ _); simpl; [exact Hm|].
  destruct (is_actionable _); simpl;
    [destruct (_ && _); simpl; destruct (sound _); simpl|];
    apply lookup_app_l_Some, Hm.
Qed.




End Dedup.

(** *** The two ingestion paths *)

Section BothPaths.
Context {Client : Type}.
Implicit Types s : Ntfy.State Client.
Import Ntfy.

Lemma _processMessage_client cb msg s :
  onMessageCallback s = Some cb ->
  match notification_of (clock s) msg with
  | Some n => exists s', _processMessage msg s = Js.Normal s' /\
                         client s' = cb n (client s)
  | None => _processMessage msg s = Js.Throw
  end.
Proof.
  intros Hcb. unfold notification_of, _processMessage.
  destruct (extractReqId _); [|reflexivity].
  eexists. split; [reflexivity|].
  set (s1 := match msg_time msg with Some t => _ | None => _ end).
  assert (H1 : wiring s1 = wiring s /\ client s1 = client s).
  { subst s1. destruct (msg_time msg) as [t|]; [|auto].
    destruct (t =? 0); [auto|]. split; [apply _saveLastSince_wiring|].
    unfold _saveLastSince, localStorage_setItem_since.
    destruct (_ || _); [|reflexivity]. simpl.
    destruct (storage_writable s); reflexivity. }
  destruct H1 as [H1 H2]. unfold wiring in H1. injection H1 as _ _ H1 _.
  rewrite H1, Hcb. simpl. rewrite H2. reflexivity.
Qed.

Lemma ingest_client cb f s :
  onMessageCallback s = Some cb ->
  client (ingest f s) = call_all cb (option_list (handed_frame (clock s) f))
                          (client s).
Proof.
  intros Hcb. unfold ingest, handed_frame. destruct f as [msg|]; [|reflexivity].
  destruct (not_a_message msg); [reflexivity|].
  pose proof (_processMessage_client cb msg s Hcb) as H.
  destruct (notification_of (clock s) msg) as [n|].
  - destruct H as (s' & -> & ->). reflexivity.
  - rewrite H. reflexivity.
Qed.




End BothPaths.


(** *** The invariant of the orchestrator *)

Section Invariant.
Import App.
Implicit Types st : App.State.

Lemma Set_add_elem x y (set : list string) :
  x ∈ Set_add y set <-> x = y \/ x ∈ set.
Proof.
  unfold Set_add, Set_has. case_bool_decide.
  - split; [auto|]. intros [-> | H']; assumption.
  - rewrite elem_of_app, list_elem_of_singleton. tauto.
Qed.

Lemma fold_Set_add_elem {A} (f : A -> string) (l : list A) set x :
  x ∈ fold_left (fun set a => Set_add (f a) set) l set <->
  x ∈ set \/ exists a, a ∈ l /\ f a = x.
Proof.
  revert set. induction l as [|a l IH]; intros set; simpl.
  - split; [auto|]. intros [H | (a & Ha & _)]; [assumption | inversion Ha].
  - rewrite IH, Set_add_elem. split.
    + intros [[-> | H] | (b & Hb & Hf)]; eauto.
      * right. exists a. split; [left | reflexivity].
      * right. exists b. split; [right; assumption | assumption].
    + intros [H | (b & Hb & Hf)]; [auto|].
      apply elem_of_cons in Hb as [-> | Hb]; eauto.
Qed.

Lemma loadHistory_initial sett history seen v :
  listed_are_seen (loadHistory (initial sett history seen v)).
Proof.
  unfold loadHistory. simpl. destruct history as [parsed|]; simpl.
  - intros r Hr. simpl in *. apply elem_of_seq in Hr as [_ Hr].
    destruct (lookup_lt_is_Some_2 parsed r) as [n Hn]; [simpl in Hr; lia|].
    exists n. split; [exact Hn|].
    apply (fold_Set_add_elem Notif.id). right. exists n.
    split; [|reflexivity]. apply list_elem_of_lookup. eauto.
  - intros r Hr. inversion Hr.
Qed.

Lemma loadSeen_listed st : listed_are_seen st -> listed_are_seen (loadSeen st).
Proof.
  intros Hinv. unfold loadSeen. destruct (stored_seen st) as [arr|];
    [|exact Hinv].
  intros r Hr. destruct (Hinv r Hr) as (n & Hn & Hs). exists n.
  split; [exact Hn|]. simpl.
  apply (fold_Set_add_elem (fun i => i)). left. exact Hs.
Qed.

Lemma on_clear_history_listed st : listed_are_seen (on_clear_history st).
Proof. intros r Hr. inversion Hr. Qed.

Lemma set_answered_listed r b st :
  listed_are_seen st ->
  listed_are_seen (renderDashboard (saveHistory (set_answered r b st))).
Proof.
  intros Hinv r' Hr'. destruct (Hinv r' Hr') as (n & Hn & Hs). simpl.
  destruct (decide (r = r')) as [->|Hne].
  - exists (Notif.set_answer b n).
    rewrite list_lookup_alter_eq, Hn. split; [reflexivity | exact Hs].
  - exists n. rewrite list_lookup_alter_ne by assumption. auto.
Qed.

Lemma UI_setStatus_listed status st :
  listed_are_seen st -> listed_are_seen (UI_setStatus status st).
Proof. intros Hinv. exact Hinv. Qed.

Lemma connect_client {Client} (cfg : Ntfy.Config Client) (s : Ntfy.State Client) :
  Ntfy.ws s = None ->
  Ntfy.client (Ntfy.connect cfg s)
  = match Ntfy.cfg_onStatus cfg with
    | Some f => f "reconnecting" (Ntfy.client s)
    | None => Ntfy.client s
    end.
Proof.
  intros Hws. unfold Ntfy.connect, Ntfy._connect, Ntfy.ws_readyState,
    Ntfy._loadLastSince, Ntfy.detach, Ntfy.setStatus.
  cbn.
  destruct (Ntfy.stored_since s) as [v|];
    [destruct (negb (v =? "")%string)|];
    cbn; rewrite Hws; cbn; destruct (Ntfy.cfg_onStatus cfg); reflexivity.
Qed.

(** The page starts with the invariant, whatever is in storage. *)
Lemma init_listed now stored sett history seen v :
  listed_are_seen
    (Ntfy.client
       (init (Ntfy.initial now stored (initial sett history seen v)))).
Proof.
  unfold init, connectNtfy. rewrite connect_client by reflexivity.
  apply UI_setStatus_listed, loadSeen_listed, loadHistory_initial.
Qed.

End Invariant.

(** *** What the callbacks keep, the connection manager keeps *)

Section ClientInvariant.
Context {Client : Type} (P : Client -> Prop).
Implicit Types s : Ntfy.State Client.
Import Ntfy.

Lemma client_inv_same s s' :
  wiring s' = wiring s -> client s' = client s ->
  client_inv P s -> client_inv P s'.
Proof.
  unfold client_inv, callbacks_keep, wiring. intros [= _ _ -> ->] ->. tauto.
Qed.

Lemma setStatus_inv st s : client_inv P s -> client_inv P (setStatus st s).
Proof.
  intros [[Hm Hs] Hp]. unfold setStatus.
  destruct (onStatusCallback s) as [f|] eqn:Hf.
  - unfold client_inv, callbacks_keep. simpl.
    split; [split; [exact Hm | rewrite Hf; exact Hs]|].
    apply (Hs f eq_refl), Hp.
  - split; [split; [exact Hm | rewrite Hf; exact Hs] | exact Hp].
Qed.

Lemma ingest_inv f s : client_inv P s -> client_inv P (ingest f s).
Proof.
  intros Hinv. pose proof (ingest_wiring f s) as Hw.
  destruct Hinv as [[Hm Hs] Hp].
  assert (Hc : P (client (ingest f s))).
  { destruct (onMessageCallback s) as [cb|] eqn:Hcb.
    - rewrite (ingest_client cb f s Hcb).
      destruct (handed_frame (clock s) f); simpl; [|exact Hp].
      eapply Hm; eauto.
    - unfold ingest. destruct f as [msg|]; [|exact Hp].
      destruct (not_a_message msg); [exact Hp|].
      unfold _processMessage. destruct (extractReqId _); [|exact Hp].
      set (s1 := match msg_time msg with Some t => _ | None => _ end).
      assert (H1 : onMessageCallback s1 = None /\ client s1 = client s).
      { subst s1. destruct (msg_time msg) as [t|]; [|auto].
        destruct (t =? 0); [auto|].
        unfold _saveLastSince, localStorage_setItem_since.
        destruct (_ || _); [|auto]. simpl.
        destruct (storage_writable s); auto. }
      destruct H1 as [-> ->]. exact Hp. }
  unfold client_inv, callbacks_keep, wiring in *.
  injection Hw as _ _ -> ->. tauto.
Qed.

Lemma ingest_all_inv ls s :
  client_inv P s -> client_inv P (fold_left (fun s f => ingest f s) ls s).
Proof.
  revert s. induction ls as [|f ls IH]; intros s Hinv; simpl; [exact Hinv|].
  apply IH, ingest_inv, Hinv.
Qed.

Lemma _connect_inv s : client_inv P s -> client_inv P (_connect s).
Proof.
  intros Hinv. unfold _connect.
  destruct (ws_readyState s) as [[]|]; try exact Hinv;
    (eapply client_inv_same; [| |exact (setStatus_inv "reconnecting" s Hinv)];
     reflexivity).
Qed.

Lemma _forceReconnect_inv s : client_inv P s -> client_inv P (_forceReconnect s).
Proof.
  intros Hinv. unfold _forceReconnect. apply _connect_inv.
  eapply client_inv_same; [| |exact Hinv]; reflexivity.
Qed.

Lemma ws_onclose_inv s : client_inv P s -> client_inv P (ws_onclose s).
Proof.
  intros Hinv. unfold ws_onclose.
  assert (H1 : client_inv P (_clearWatchdog s)).
  { unfold _clearWatchdog. destruct (watchdogTimer s); [|exact Hinv].
    eapply client_inv_same; [| |exact Hinv]; reflexivity. }
  destruct (negb _); [|exact H1]. unfold _scheduleReconnect.
  eapply client_inv_same;
    [| |exact (setStatus_inv "disconnected" _ H1)]; reflexivity.
Qed.

Lemma iter_inv (f : State Client -> State Client) (n : nat) s :
  (forall s, client_inv P s -> client_inv P (f s)) ->
  client_inv P s -> client_inv P (Nat.iter n f s).
Proof. intros Hf Hs. induction n; simpl; auto. Qed.

Lemma handle_inv e s s' :
  client_inv P s -> handle e s = Some s' -> client_inv P s'.
Proof.
  intros Hinv. destruct e as [i|i f|i| | |j r|v|]; simpl.
  - destruct (readyState <$> sockets s !! i) as [[]|]; try discriminate.
    intros [= <-]. unfold ws_onopen, _resetWatchdog.
    eapply client_inv_same; [| |apply (setStatus_inv "connected")];
      [reflexivity | reflexivity |].
    eapply client_inv_same; [| |exact Hinv]; reflexivity.
  - destruct (readyState <$> sockets s !! i) as [[]|]; try discriminate.
    intros [= <-]. unfold ws_onmessage. apply ingest_inv.
    eapply client_inv_same; [| |exact Hinv]; reflexivity.
  - destruct (readyState <$> sockets s !! i) as [[]|]; try discriminate;
      intros [= <-]; apply ws_onclose_inv;
      (eapply client_inv_same; [| |exact Hinv]; reflexivity).
  - destruct (due _ _); [|discriminate]. intros [= <-].
    unfold reconnect_callback. apply _connect_inv.
    eapply client_inv_same; [| |exact Hinv]; reflexivity.
  - destruct (due _ _); [|discriminate]. intros [= <-].
    unfold watchdog_callback, ws_close. simpl.
    destruct (ws s); (eapply client_inv_same; [| |exact Hinv]; reflexivity).
  - destruct (polls s !! j) as [p|]; [|discriminate].
    destruct (settled p); [discriminate|]. intros [= <-].
    assert (H1 : client_inv P
                   (with_polls (<[j:=mkPoll (request p) true]> (polls s)) s))
      by (eapply client_inv_same; [| |exact Hinv]; reflexivity).
    unfold _fetchRecent_resume. destruct r as [res|]; [|exact H1].
    destruct (Async.ok res); [|exact H1].
    destruct (Async.lines res); [|exact H1]. simpl.
    apply ingest_all_inv, H1.
  - intros [= <-]. apply iter_inv; [|exact Hinv]. intros s1 H1.
    unfold on_visibilitychange. destruct (v && _); [|exact H1].
    destruct (ws_readyState s1) as [[]|]; try exact H1;
      apply _forceReconnect_inv, H1.
  - intros [= <-]. apply iter_inv; [|exact Hinv]. intros s1 H1.
    unfold on_online. destruct (negb _); [|exact H1].
    apply _forceReconnect_inv, H1.
Qed.

(** Whatever the browser delivers, [P] stays true of the client. *)
Lemma run_inv evs s s' : client_inv P s -> run evs s = Some s' -> client_inv P s'.
Proof.
  revert s. induction evs as [|[now e] evs IH]; intros s Hinv; simpl.
  - intros [= <-]. exact Hinv.
  - unfold dispatch. destruct (clock s <=? now); [|discriminate].
    destruct (handle e (with_clock now s)) as [s1|] eqn:He; [|discriminate].
    apply IH. eapply handle_inv; [|exact He].
    eapply client_inv_same; [| |exact Hinv]; reflexivity.
Qed.

End ClientInvariant.

Section Wiring.
Context {Client : Type}.
Implicit Types s : Ntfy.State Client.
Import Ntfy.

Lemma handle_wiring e s s' : handle e s = Some s' -> wiring s' = wiring s.
Proof.
  destruct e as [i|i f|i| | |j r|v|]; simpl.
  - destruct (readyState <$> sockets s !! i) as [[]|]; try discriminate.
    intros [= <-]. rewrite ws_onopen_wiring. reflexivity.
  - destruct (readyState <$> sockets s !! i) as [[]|]; try discriminate.
    intros [= <-]. unfold ws_onmessage. rewrite ingest_wiring. reflexivity.
  - destruct (readyState <$> sockets s !! i) as [[]|]; try discriminate;
      intros [= <-]; rewrite ws_onclose_wiring; reflexivity.
  - destruct (due _ _); [|discriminate]. intros [= <-].
    rewrite reconnect_callback_wiring. reflexivity.
  - destruct (due _ _); [|discriminate]. intros [= <-].
    unfold watchdog_callback. rewrite ws_close_wiring. reflexivity.
  - destruct (polls s !! j) as [p|]; [|discriminate].
    destruct (settled p); [discriminate|]. intros [= <-].
    unfold _fetchRecent_resume. destruct r as [res|]; [|reflexivity].
    destruct (Async.ok res); [|reflexivity].
    destruct (Async.lines res); [|reflexivity]. simpl.
    rewrite ingest_all_wiring. reflexivity.
  - intros [= <-]. apply (iter_preserves wiring), on_visibilitychange_wiring.
  - intros [= <-]. apply (iter_preserves wiring), on_online_wiring.
Qed.

Lemma run_wiring evs s s' : run evs s = Some s' -> wiring s' = wiring s.
Proof.
  revert s. induction evs as [|[now e] evs IH]; intros s; simpl.
  - intros [= <-]. reflexivity.
  - unfold dispatch. destruct (clock s <=? now); [|discriminate].
    destruct (handle e (with_clock now s)) as [s1|] eqn:He; [|discriminate].
    intros Hrun. rewrite (IH _ Hrun), (handle_wiring _ _ _ He). reflexivity.
Qed.

Lemma wiring_callbacks s tp rt cm cs :
  wiring s = (tp, rt, cm, cs) ->
  onMessageCallback s = cm /\ onStatusCallback s = cs.
Proof. unfold wiring. intros [= _ _ -> ->]. split; reflexivity. Qed.

Lemma _loadLastSince_wiring s : wiring (_loadLastSince s) = wiring s.
Proof.
  unfold _loadLastSince.
  destruct (stored_since s) as [v|]; [destruct (Js.truthy_string _)|];
    reflexivity.
Qed.

Lemma with_listeners_wiring n s : wiring (with_listeners n s) = wiring s.
Proof. reflexivity. Qed.

Lemma connect_wiring cfg s :
  wiring (connect cfg s)
  = (cfg_topic cfg, cfg_replyTopic cfg, cfg_onMessage cfg, cfg_onStatus cfg).
Proof.
  unfold connect. cbv zeta.
  rewrite with_listeners_wiring, _connect_wiring, _loadLastSince_wiring.
  reflexivity.
Qed.

End Wiring.

Lemma init_wiring (w0 : App.World) :
  Ntfy.onMessageCallback (App.init w0) = Some App.handleMessage /\
  Ntfy.onStatusCallback (App.init w0) = Some App.UI_setStatus.
Proof.
  unfold App.init, App.connectNtfy.
  match goal with
  | |- Ntfy.onMessageCallback (Ntfy.connect ?cfg ?x) = _ /\ _ =>
      exact (wiring_callbacks _ _ _ _ _ (connect_wiring cfg x))
  end.
Qed.

(** From the start of the page on, the handler of the orchestrator is the
    callback and every listed notification has its id in the seen-set. *)
Lemma page_listed now stored sett history seen v evs (w : App.World) :
  Ntfy.run evs
    (App.init (Ntfy.initial now stored (App.initial sett history seen v)))
  = Some w ->
  Ntfy.onMessageCallback w = Some App.handleMessage /\
  listed_are_seen (Ntfy.client w).
Proof.
  pose proof (init_listed now stored sett history seen v) as Hl.
  revert Hl.
  generalize (Ntfy.initial now stored (App.initial sett history seen v)).
  intros w0 Hl Hrun. destruct (init_wiring w0) as [Hm Hs].
  assert (Hwm : Ntfy.onMessageCallback w = Some App.handleMessage).
  { rewrite <- Hm. generalize (run_wiring _ _ _ Hrun).
    generalize (App.init w0). intros w1. unfold wiring.
    intros [= _ _ -> _]. reflexivity. }
  split; [exact Hwm|].
  assert (Hinit : client_inv listed_are_seen (App.init w0)).
  { split; [|exact Hl]. split.
    - rewrite Hm. intros cb [= <-] n c. apply handleMessage_keeps_seen.
    - rewrite Hs. intros f [= <-] st c. apply UI_setStatus_listed. }
  destruct (run_inv listed_are_seen evs _ _ Hinit Hrun) as [_ H]. exact H.
Qed.

(** ** C4 and C5: answering a notification *)

Section Responses.
Import Async Ntfy App.
Implicit Types w : World.

Lemma handleResponse_skips notifId body w net :
  answerable notifId w = None ->
  advance (handleResponse notifId body) w = (w, Finished tt) /\
  exec (handleResponse notifId body) net w = Some (w, tt, []).
Proof.
  unfold answerable, handleResponse. simpl.
  destruct (find_by_id notifId (client w)) as [r|]; [|auto].
  destruct (heap (client w) !! r) as [n|]; [|auto].
  destruct (Notif.answered n); [auto | discriminate].
Qed.

Lemma handleResponse_first_try notifId body w r n res net :
  answerable notifId w = Some (r, n) ->
  exec (handleResponse notifId body) (Resolved res :: net) w
  = Some (mark_answered r body w, tt,
          [Fetched (reply_request w body) (Resolved res)]).
Proof.
  unfold answerable, handleResponse. simpl.
  destruct (find_by_id notifId (client w)) as [r'|]; [|discriminate].
  destruct (heap (client w) !! r') as [n'|]; [|discriminate].
  destruct (Notif.answered n'); [discriminate|]. intros [= -> ->].
  reflexivity.
Qed.

Lemma handleResponse_retry notifId body w r n o2 net :
  answerable notifId w = Some (r, n) ->
  exec (handleResponse notifId body) (Rejected :: o2 :: net) w
  = Some (mark_answered r body w, tt,
          [Fetched (reply_request w body) Rejected; Slept 1000;
           Fetched (reply_request w body) o2]).
Proof.
  unfold answerable, handleResponse. simpl.
  destruct (find_by_id notifId (client w)) as [r'|]; [|discriminate].
  destruct (heap (client w) !! r') as [n'|]; [|discriminate].
  destruct (Notif.answered n'); [discriminate|]. intros [= -> ->].
  destruct o2; reflexivity.
Qed.

(** Marking touches the two fields of one object and nothing else of the
    orchestrator's variables. *)
Lemma mark_answered_spec r body w :
  heap (client (mark_answered r body w))
  = alter (Notif.set_answer body) r (heap (client w)) /\
  notifications (client (mark_answered r body w)) = notifications (client w) /\
  seenIds (client (mark_answered r body w)) = seenIds (client w).
Proof. repeat split. Qed.

Lemma set_answer_spec b n :
  let n' := Notif.set_answer b n in
  Notif.answered n' = true /\ Notif.answeredWith n' = Some b /\
  Notif.id n' = Notif.id n /\ Notif.type n' = Notif.type n /\
  Notif.title n' = Notif.title n /\ Notif.message n' = Notif.message n /\
  Notif.time n' = Notif.time n /\ Notif.priority n' = Notif.priority n /\
  Notif.actions n' = Notif.actions n /\ Notif.reqId n' = Notif.reqId n.
Proof. repeat split. Qed.

(** A call that runs to its end with nothing in between answers at most the
    one notification it found unanswered, and leaves every other object as
    it was. *)
Lemma handleResponse_alone notifId body w net w' tr :
  exec (handleResponse notifId body) net w = Some (w', tt, tr) ->
  forall r n, heap (client w) !! r = Some n ->
    heap (client w') !! r = Some n \/
    (Notif.answered n = false /\
     heap (client w') !! r = Some (Notif.set_answer body n)).
Proof.
  intros Hex r n Hn.
  destruct (answerable notifId w) as [[r0 n0]|] eqn:Ha.
  - assert (Hw' : w' = mark_answered r0 body w).
    { destruct net as [|[res|] net].
      - unfold answerable, handleResponse in *. simpl in *.
        destruct (find_by_id notifId (client w)); [|discriminate].
        destruct (heap (client w) !! _); [|discriminate].
        destruct (Notif.answered _); discriminate.
      - rewrite (handleResponse_first_try _ _ _ _ _ _ _ Ha) in Hex.
        congruence.
      - destruct net as [|o2 net].
        + unfold answerable, handleResponse in *. simpl in *.
          destruct (find_by_id notifId (client w)); [|discriminate].
          destruct (heap (client w) !! _); [|discriminate].
          destruct (Notif.answered _); discriminate.
        + rewrite (handleResponse_retry _ _ _ _ _ _ _ Ha) in Hex.
          congruence. }
    subst w'. destruct (mark_answered_spec r0 body w) as (-> & _).
    destruct (decide (r0 = r)) as [->|Hne].
    + right. rewrite list_lookup_alter_eq, Hn. simpl.
      unfold answerable in Ha.
      destruct (find_by_id notifId (client w)) as [r1|]; [|discriminate].
      destruct (heap (client w) !! r1) as [n1|] eqn:Hn1; [|discriminate].
      destruct (Notif.answered n1) eqn:Han; [discriminate|].
      injection Ha as -> ->. rewrite Hn in Hn1. injection Hn1 as ->. auto.
    + left. rewrite list_lookup_alter_ne by assumption. exact Hn.
  - destruct (handleResponse_skips notifId body w net Ha) as [_ Hs].
    rewrite Hs in Hex. injection Hex as <- _. left. exact Hn.
Qed.

(** C4, as amended. [respond] makes a single attempt: one POST of the body
    to the reply topic, true if the request resolves and false if it
    rejects. The retry is made by [handleResponse] for an unanswered
    notification: when the first [respond] gives false it waits 1000 ms and
    calls [respond] once more with the same body, whatever comes of it; it
    never makes a third attempt and gives no success value. *)
Theorem C4_single_attempt_retry_by_caller w (body : string) :
  (forall r net,
     exec (respond body) (r :: net) w
     = Some (w, match r with Resolved _ => true | Rejected => false end,
             [Fetched (reply_request w body) r])) /\
  (forall notifId r n res net,
     answerable notifId w = Some (r, n) ->
     exec (handleResponse notifId body) (Resolved res :: net) w
     = Some (mark_answered r body w, tt,
             [Fetched (reply_request w body) (Resolved res)])) /\
  (forall notifId r n o2 net,
     answerable notifId w = Some (r, n) ->
     exec (handleResponse notifId body) (Rejected :: o2 :: net) w
     = Some (mark_answered r body w, tt,
             [Fetched (reply_request w body) Rejected; Slept 1000;
              Fetched (reply_request w body) o2])).
Proof.
  split; [|split].
  - intros [res|] net; reflexivity.
  - intros. eapply handleResponse_first_try; eassumption.
  - intros. eapply handleResponse_retry; eassumption.
Qed.

End Responses.

(** ** Runs of the concrete pages *)





Example end_to_end_classified :
  App.objects (Ntfy.client page_with_m1)
  = [Notif.mk "m1" Permission "Permission needed" "Run the build?"
       1700000001000 3
       [mkAction (Some "OK") (Some "OK_42");
        mkAction (Some "Deny") (Some "NOK_42")]
       (Some "42") false None].
Proof. reflexivity. Qed.

Example end_to_end_answered :
  (fun r => App.objects (Ntfy.client r.1.1))
    <$> Async.exec (App.handleResponse "m1" "OK_42")
          [Async.Resolved http_ok] page_with_m1
  = Some [Notif.mk "m1" Permission "Permission needed" "Run the build?"
            1700000001000 3
            [mkAction (Some "OK") (Some "OK_42");
             mkAction (Some "Deny") (Some "NOK_42")]
            (Some "42") true (Some "OK_42")].
Proof. reflexivity. Qed.

Lemma handleResponse_starts notifId body r n (w : App.World) :
  answerable notifId w = Some (r, n) ->
  Async.advance (App.handleResponse notifId body) w
  = (w, Async.AwaitFetch (reply_request w body) (after_first_respond r body)).
Proof.
  unfold answerable, App.handleResponse. cbn [Async.advance].
  destruct (App.find_by_id notifId (Ntfy.client w)) as [r'|]; [|discriminate].
  destruct (App.heap (Ntfy.client w) !! r') as [n'|]; [|discriminate].
  destruct (Notif.answered n'); [discriminate|]. intros [= -> ->].
  reflexivity.
Qed.

Lemma after_first_respond_resolved r body res (w : App.World) :
  Async.advance (after_first_respond r body (Async.Resolved res)) w
  = (mark_answered r body w, Async.Finished tt).
Proof. reflexivity. Qed.

(** Whatever the notification and the two bodies: when the second call is
    made while the first awaits its POST, both post and both write. *)
Lemma overlapping_calls_both_write notifId b1 b2 r n (w : App.World) :
  answerable notifId w = Some (r, n) ->
  overlapping_responses notifId b1 b2 r w
  = Some ([reply_request w b1; reply_request w b2],
          [Some (false, Notif.answeredWith n);
           Some (true, Some b1);
           Some (true, Some b2)]).
Proof.
  intros Ha. unfold overlapping_responses.
  rewrite (handleResponse_starts notifId b1 r n w Ha),
    (handleResponse_starts notifId b2 r n w Ha),
    !after_first_respond_resolved.
  unfold answerable in Ha.
  destruct (App.find_by_id notifId (Ntfy.client w)) as [r'|]; [|discriminate].
  destruct (App.heap (Ntfy.client w) !! r') as [n'|] eqn:Hn; [|discriminate].
  destruct (Notif.answered n') eqn:Han; [discriminate|].
  injection Ha as -> ->. unfold answer_of. cbn.
  rewrite !list_lookup_alter_eq, Hn. cbn. rewrite Han. reflexivity.
Qed.

(** C5. Two overlapping calls of [handleResponse] for the notification m1,
    one with "OK_42" and one with "NOK_42", both pass the test of
    [answered], both post their body, and both write the pair when they
    resume: it goes from (false, null) to (true, "OK_42") and then to
    (true, "NOK_42"). *)
Theorem C5_overlapping_calls_answer_twice :
  overlapping_responses "m1" "OK_42" "NOK_42" 0 page_with_m1
  = Some ([Async.POST "https://ntfy.sh/replies" "OK_42";
           Async.POST "https://ntfy.sh/replies" "NOK_42"],
          [Some (false, None);
           Some (true, Some "OK_42");
           Some (true, Some "NOK_42")]).
Proof. reflexivity. Qed.

(** C4 as stated fails: when the first attempt is rejected and a second one
    would succeed, [respond] has returned false after its only POST. *)
Lemma C4_counterexample :
  Async.exec (Ntfy.respond "OK_42")
    [Async.Rejected; Async.Resolved http_ok] page_with_m1
  = Some (page_with_m1, false,
          [Async.Fetched (Async.POST "https://ntfy.sh/replies" "OK_42")
             Async.Rejected]).
Proof. reflexivity. Qed.

Lemma C4_single_attempt_retry_by_caller_witness :
  (fun r => r.2)
    <$> Async.exec (App.handleResponse "m1" "OK_42")
          [Async.Rejected; Async.Rejected] page_with_m1
  = Some [Async.Fetched (Async.POST "https://ntfy.sh/replies" "OK_42")
            Async.Rejected;
          Async.Slept 1000;
          Async.Fetched (Async.POST "https://ntfy.sh/replies" "OK_42")
            Async.Rejected].
Proof.
  destruct (C4_single_attempt_retry_by_caller page_with_m1 "OK_42")
    as (_ & _ & H).
  rewrite (H "m1" 0%nat
             (Notif.mk "m1" Permission "Permission needed" "Run the build?"
                1700000001000 3
                [mkAction (Some "OK") (Some "OK_42");
                 mkAction (Some "Deny") (Some "NOK_42")]
                (Some "42") false None)
             Async.Rejected []).
  - reflexivity.
  - reflexivity.
Defined.






